(** * Process bootstrap of the dashboard UI: [selfdrive/ui/main.cc]

    A shallow embedding of [main] as a state-passing program over the
    process-wide state it touches (application attributes, the default TLS
    configuration, the application object, the translator, the main window
    reference) together with the ordered list of the calls it makes, and the
    properties of that start-up sequence. *)

From Stdlib Require Import ZArith.
From stdpp Require Import base option strings list gmap.

Local Open Scope Z_scope.

(** ** The parts of Qt that [main] talks to *)

Module Qt.

(** [Qt::ApplicationAttribute]: the one [main] names, and the others by
    their enum value. *)
Inductive ApplicationAttribute :=
| AA_ShareOpenGLContexts
| AA_Other (code : N).

#[global] Instance ApplicationAttribute_eq_dec : EqDecision ApplicationAttribute.
Proof. solve_decision. Defined.

#[global] Instance ApplicationAttribute_countable : Countable ApplicationAttribute.
Proof.
  refine (inj_countable'
            (λ a, match a with AA_ShareOpenGLContexts => None | AA_Other c => Some c end)
            (λ o, match o with None => AA_ShareOpenGLContexts | Some c => AA_Other c end) _).
  by intros [].
Defined.

(** [QSslCertificate]: a certificate, identified by its encoded form. *)
Record QSslCertificate := { encoded : string }.

#[global] Instance QSslCertificate_eq_dec : EqDecision QSslCertificate.
Proof. solve_decision. Defined.

#[global] Instance QSslCertificate_countable : Countable QSslCertificate.
Proof. refine (inj_countable' encoded (λ s, {| encoded := s |}) _). by intros []. Defined.

(** [QSslConfiguration]: the settings a TLS connection starts from. The
    last one tells whether root certificates that are not in the list may
    be fetched from the system store when a handshake needs them. *)
Record QSslConfiguration := {
  protocol : N;
  peerVerifyMode : N;
  peerVerifyDepth : Z;
  localCertificateChain : list QSslCertificate;
  privateKey : string;
  ciphers : list string;
  caCertificates : list QSslCertificate;
  allowRootCertOnDemandLoading : bool
}.

#[global] Instance QSslConfiguration_eq_dec : EqDecision QSslConfiguration.
Proof. solve_decision. Defined.

(** [QSslConfiguration::setCaCertificates]: the list is replaced, and with
    a list given by hand root certificates are no longer fetched on
    demand. *)
Definition setCaCertificates (cfg : QSslConfiguration)
    (certificates : list QSslCertificate) : QSslConfiguration :=
  {| protocol := protocol cfg;
     peerVerifyMode := peerVerifyMode cfg;
     peerVerifyDepth := peerVerifyDepth cfg;
     localCertificateChain := localCertificateChain cfg;
     privateKey := privateKey cfg;
     ciphers := ciphers cfg;
     caCertificates := certificates;
     allowRootCertOnDemandLoading := false |}.

(** [QTranslator]: empty until a catalogue (source text to translated
    text) has been loaded into it. *)
Record QTranslator := { catalogue : option (gmap string string) }.

Definition isEmpty (t : QTranslator) : bool :=
  match catalogue t with Some _ => false | None => true end.

(** The objects [main] hands to Qt by address: [&translator] and [&w]. *)
Inductive ObjRef := ref_translator | ref_w.

#[global] Instance ObjRef_eq_dec : EqDecision ObjRef.
Proof. solve_decision. Defined.

(** [QApplication]: the arguments it was built with, the translators and
    the event filters installed on it, most recent first. *)
Record QApplication := {
  app_argc : Z;
  app_argv : list string;
  translators : list ObjRef;
  eventFilters : list ObjRef
}.

End Qt.
Export Qt.

(** ** The world outside [main.cc] *)

(** What the file system holds at a path. *)
Inductive FileState :=
| Missing
| Unreadable
| Readable (data : string).

(** Everything [main] reads and does not decide itself. *)
Record Env := {
  (** Modelled from the spec: [Hardware::EON()] of selfdrive/hardware/hw.h,
      the platform capability check, a pure query. *)
  EON : bool;
  (** the TLS configuration the platform starts the process with *)
  platform_ssl : QSslConfiguration;
  (** the local file system *)
  file : string → FileState;
  (** the certificates a PEM decoder finds in a file's data *)
  pem_certificates : string → list QSslCertificate;
  (** the catalogue found for a file name and a search directory, if any *)
  qm_lookup : string → string → option (gmap string string);
  (** the locale of the system *)
  system_locale : string;
  (** the value the dispatch loop returns when the application quits *)
  loop_exit : Z
}.

(** ** Process-wide state *)

(** The calls [main] makes, as they are made. *)
Inductive Event :=
| SetSurfaceFormat
| SetAttribute (attribute : ApplicationAttribute)
| ReadCertificates (path : string)
| SetDefaultSslConfiguration
| ConstructApplication
| LoadTranslation (filename directory : string)
| DebugMessage (message : string)
| InstallTranslator
| ConstructMainWindow
| SetMainWindow
| InstallEventFilter
| EnterEventLoop.

#[global] Instance Event_eq_dec : EqDecision Event.
Proof. solve_decision. Defined.

(** Modelled from the spec: [MainWindow] of selfdrive/ui/qt/window.h, the
    top-level window, a black box once constructed. *)
Inductive MainWindow := the_window.

Record Process := {
  surface_format_set : bool;
  attributes : gset ApplicationAttribute;
  ssl_default : QSslConfiguration;
  qapp : option QApplication;
  translator : option QTranslator;
  w : option MainWindow;
  main_window : option ObjRef;
  trace : list Event
}.

(** The process as [main] is entered. *)
Definition start (env : Env) : Process :=
  {| surface_format_set := false;
     attributes := ∅;
     ssl_default := platform_ssl env;
     qapp := None;
     translator := None;
     w := None;
     main_window := None;
     trace := [] |}.

(** ** Statements as state transformers *)

Definition M (A : Type) : Type := Process → A * Process.

#[global] Instance M_ret : MRet M := λ A x p, (x, p).
#[global] Instance M_bind : MBind M := λ A B f m p,
  match m p with
  | (x, p') => f x p'
  end.

Definition emit (e : Event) (p : Process) : Process :=
  {| surface_format_set := surface_format_set p;
     attributes := attributes p;
     ssl_default := ssl_default p;
     qapp := qapp p;
     translator := translator p;
     w := w p;
     main_window := main_window p;
     trace := trace p ++ [e] |}.

(** Modelled from the spec: [setQtSurfaceFormat] of selfdrive/ui/qt/util.h,
    a write of the global rendering-surface defaults with no inputs, no
    result and no failure path. *)
Definition setQtSurfaceFormat : M () := λ p,
  ((), emit SetSurfaceFormat
     {| surface_format_set := true;
        attributes := attributes p;
        ssl_default := ssl_default p;
        qapp := qapp p;
        translator := translator p;
        w := w p;
        main_window := main_window p;
        trace := trace p |}).

(** [Hardware::EON()] *)
Definition Hardware_EON (env : Env) : bool := EON env.

(** [QApplication::setAttribute(attribute)] *)
Definition QApplication_setAttribute (attribute : ApplicationAttribute) : M () := λ p,
  ((), emit (SetAttribute attribute)
     {| surface_format_set := surface_format_set p;
        attributes := {[ attribute ]} ∪ attributes p;
        ssl_default := ssl_default p;
        qapp := qapp p;
        translator := translator p;
        w := w p;
        main_window := main_window p;
        trace := trace p |}).

(** [QSslConfiguration::defaultConfiguration()] *)
Definition QSslConfiguration_defaultConfiguration : M QSslConfiguration := λ p,
  (ssl_default p, p).

(** [QSslCertificate::fromPath(path)]: the certificates decoded from the
    file, none when there is no file to read. *)
Definition fromPath (env : Env) (path : string) : list QSslCertificate :=
  match file env path with
  | Readable data => pem_certificates env data
  | Missing | Unreadable => []
  end.

Definition QSslCertificate_fromPath (env : Env) (path : string)
    : M (list QSslCertificate) := λ p,
  (fromPath env path, emit (ReadCertificates path) p).

(** [QSslConfiguration::setDefaultConfiguration(configuration)] *)
Definition QSslConfiguration_setDefaultConfiguration (configuration : QSslConfiguration)
    : M () := λ p,
  ((), emit SetDefaultSslConfiguration
     {| surface_format_set := surface_format_set p;
        attributes := attributes p;
        ssl_default := configuration;
        qapp := qapp p;
        translator := translator p;
        w := w p;
        main_window := main_window p;
        trace := trace p |}).

(** [QApplication a(argc, argv)] *)
Definition QApplication_ctor (argc : Z) (argv : list string) : M () := λ p,
  ((), emit ConstructApplication
     {| surface_format_set := surface_format_set p;
        attributes := attributes p;
        ssl_default := ssl_default p;
        qapp := Some {| app_argc := argc; app_argv := argv;
                        translators := []; eventFilters := [] |};
        translator := translator p;
        w := w p;
        main_window := main_window p;
        trace := trace p |}).

(** [QTranslator translator]: a fresh translator is empty. *)
Definition QTranslator_ctor : M () := λ p,
  ((), {| surface_format_set := surface_format_set p;
          attributes := attributes p;
          ssl_default := ssl_default p;
          qapp := qapp p;
          translator := Some {| catalogue := None |};
          w := w p;
          main_window := main_window p;
          trace := trace p |}).

(** [translator.load(filename, directory)]: the translator holds the
    catalogue found, or nothing; the result tells which. *)
Definition QTranslator_load (env : Env) (filename directory : string) : M bool := λ p,
  let found := qm_lookup env filename directory in
  (bool_decide (is_Some found),
   emit (LoadTranslation filename directory)
     {| surface_format_set := surface_format_set p;
        attributes := attributes p;
        ssl_default := ssl_default p;
        qapp := qapp p;
        translator := Some {| catalogue := found |};
        w := w p;
        main_window := main_window p;
        trace := trace p |}).

(** [qDebug() << message] *)
Definition qDebug (message : string) : M () := λ p,
  ((), emit (DebugMessage message) p).

(** [a.installTranslator(translationFile)]: the translator joins the front
    of the application's list. *)
Definition installTranslator (translationFile : ObjRef) : M () := λ p,
  ((), emit InstallTranslator
     {| surface_format_set := surface_format_set p;
        attributes := attributes p;
        ssl_default := ssl_default p;
        qapp := (λ q, {| app_argc := app_argc q; app_argv := app_argv q;
                         translators := translationFile :: translators q;
                         eventFilters := eventFilters q |}) <$> qapp p;
        translator := translator p;
        w := w p;
        main_window := main_window p;
        trace := trace p |}).

(** [MainWindow w] *)
Definition MainWindow_ctor : M () := λ p,
  ((), emit ConstructMainWindow
     {| surface_format_set := surface_format_set p;
        attributes := attributes p;
        ssl_default := ssl_default p;
        qapp := qapp p;
        translator := translator p;
        w := Some the_window;
        main_window := main_window p;
        trace := trace p |}).

(** Modelled from the spec: [setMainWindow] of selfdrive/ui/qt/qt_window.h,
    which registers a globally reachable, non-owning reference to the
    window as the current main window. *)
Definition setMainWindow (window : ObjRef) : M () := λ p,
  ((), emit SetMainWindow
     {| surface_format_set := surface_format_set p;
        attributes := attributes p;
        ssl_default := ssl_default p;
        qapp := qapp p;
        translator := translator p;
        w := w p;
        main_window := Some window;
        trace := trace p |}).

(** [a.installEventFilter(filterObj)] *)
Definition installEventFilter (filterObj : ObjRef) : M () := λ p,
  ((), emit InstallEventFilter
     {| surface_format_set := surface_format_set p;
        attributes := attributes p;
        ssl_default := ssl_default p;
        qapp := (λ q, {| app_argc := app_argc q; app_argv := app_argv q;
                         translators := translators q;
                         eventFilters := filterObj :: eventFilters q |}) <$> qapp p;
        translator := translator p;
        w := w p;
        main_window := main_window p;
        trace := trace p |}).

(** [a.exec()]: the dispatch loop is entered; its result is the world's. *)
Definition exec (env : Env) : M Z := λ p,
  (loop_exit env, emit EnterEventLoop p).

(** ** [main] *)

Definition main (env : Env) (argc : Z) (argv : list string) : M Z :=
  setQtSurfaceFormat ;;
  (if Hardware_EON env then
     QApplication_setAttribute AA_ShareOpenGLContexts ;;
     ssl ← QSslConfiguration_defaultConfiguration ;
     certificates ← QSslCertificate_fromPath env "/usr/etc/tls/cert.pem" ;
     let ssl := setCaCertificates ssl certificates in
     QSslConfiguration_setDefaultConfiguration ssl
   else mret ()) ;;
  QApplication_ctor argc argv ;;
  QTranslator_ctor ;;
  ok ← QTranslator_load env "main_fr" "translations" ;
  (if negb ok then qDebug "Failed to load translation!" else mret ()) ;;
  installTranslator ref_translator ;;  (* needs to be before setting main window *)
  MainWindow_ctor ;;
  setMainWindow ref_w ;;
  installEventFilter ref_w ;;
  exec env.

(** Running [main] in a fresh process. *)
Definition run (env : Env) (argc : Z) (argv : list string) : Z * Process :=
  main env argc argv (start env).

Definition final (env : Env) (argc : Z) (argv : list string) : Process :=
  (run env argc argv).2.

(** ** The stages of [main], named *)

(** Lines 14 to 16: the trust store is replaced by the bundle's contents. *)
Definition install_trust_store (env : Env) : M () :=
  ssl ← QSslConfiguration_defaultConfiguration ;
  certificates ← QSslCertificate_fromPath env "/usr/etc/tls/cert.pem" ;
  let ssl := setCaCertificates ssl certificates in
  QSslConfiguration_setDefaultConfiguration ssl.

(** Lines 12 to 17: what is done on the embedded target only. *)
Definition hardware_stage (env : Env) : M () :=
  if Hardware_EON env then
    QApplication_setAttribute AA_ShareOpenGLContexts ;;
    install_trust_store env
  else mret ().

(** Lines 21 to 25: the translation is loaded and installed. *)
Definition localization_stage (env : Env) : M () :=
  QTranslator_ctor ;;
  ok ← QTranslator_load env "main_fr" "translations" ;
  (if negb ok then qDebug "Failed to load translation!" else mret ()) ;;
  installTranslator ref_translator.

(** Lines 27 to 29: the window is built and registered. *)
Definition window_stage : M () :=
  MainWindow_ctor ;;
  setMainWindow ref_w ;;
  installEventFilter ref_w.

(** ** What can be observed of a process *)

(** The translator an address stands for. *)
Definition deref_translator (p : Process) (r : ObjRef) : option QTranslator :=
  match r with
  | ref_translator => translator p
  | ref_w => None
  end.

(** The catalogues the application translates with: those held by the
    translators installed on it, most recent first. *)
Definition installed_catalogues (p : Process) : list (gmap string string) :=
  match qapp p with
  | Some q => omap (λ r, deref_translator p r ≫= catalogue) (translators q)
  | None => []
  end.

(** The text shown for a source text: the first translation an installed
    catalogue has for it, the source text itself when there is none. *)
Definition translate (p : Process) (sourceText : string) : string :=
  match omap (λ c : gmap string string, c !! sourceText) (installed_catalogues p) with
  | translation :: _ => translation
  | [] => sourceText
  end.

(** Position of the first occurrence of a call. *)
Fixpoint index_of (e : Event) (t : list Event) : option nat :=
  match t with
  | [] => None
  | x :: t' => if decide (x = e) then Some 0%nat else S <$> index_of e t'
  end.

(** [e1] is called, [e2] is called, and [e1] first. *)
Definition strictly_before (e1 e2 : Event) (t : list Event) : Prop :=
  ∃ i j : nat, index_of e1 t = Some i ∧ index_of e2 t = Some j ∧ (i < j)%nat.

(** How often a call is made. *)
Definition occurrences (e : Event) (t : list Event) : nat :=
  length (filter (λ x, x = e) t).

(** The (file name, directory) pairs of the catalogue loads attempted. *)
Definition load_requests (t : list Event) : list (string * string) :=
  omap (λ e, match e with
             | LoadTranslation filename directory => Some (filename, directory)
             | _ => None
             end) t.

(** The diagnostics emitted. *)
Definition diagnostics (t : list Event) : list string :=
  omap (λ e, match e with DebugMessage message => Some message | _ => None end) t.

(** The calls of a run of [main], in order. *)
Definition main_events (env : Env) : list Event :=
  [SetSurfaceFormat]
  ++ (if EON env
      then [SetAttribute AA_ShareOpenGLContexts;
            ReadCertificates "/usr/etc/tls/cert.pem";
            SetDefaultSslConfiguration]
      else [])
  ++ [ConstructApplication; LoadTranslation "main_fr" "translations"]
  ++ match qm_lookup env "main_fr" "translations" with
     | Some _ => []
     | None => [DebugMessage "Failed to load translation!"]
     end
  ++ [InstallTranslator; ConstructMainWindow; SetMainWindow; InstallEventFilter;
      EnterEventLoop].

(** ** Sample worlds *)

Definition stock_ssl : QSslConfiguration :=
  {| protocol := 15;
     peerVerifyMode := 3;
     peerVerifyDepth := 0;
     localCertificateChain := [];
     privateKey := "";
     ciphers := ["TLS_AES_256_GCM_SHA384"; "ECDHE-RSA-AES128-GCM-SHA256"];
     caCertificates := [{| encoded := "system-root-1" |}; {| encoded := "system-root-2" |}];
     allowRootCertOnDemandLoading := true |}.

(** A decoder for the samples: one certificate per word, [#] words are junk. *)
Definition sample_decoder (data : string) : list QSslCertificate :=
  (λ s, {| encoded := s |})
    <$> filter (λ s, String.get 0%nat s ≠ String.get 0%nat "#") (String.words data).

Definition french : gmap string string :=
  {[ "Settings" := "Parametres"; "Reboot" := "Redemarrer" ]}.

(** The device, with a bundle of three certificates and the catalogue. *)
Definition eon_world : Env :=
  {| EON := true;
     platform_ssl := stock_ssl;
     file := λ path, if String.eqb path "/usr/etc/tls/cert.pem"
                     then Readable "comma-ca letsencrypt-r3 isrg-x1" else Missing;
     pem_certificates := sample_decoder;
     qm_lookup := λ filename directory,
       if String.eqb filename "main_fr" && String.eqb directory "translations"
       then Some french else None;
     system_locale := "fr_FR";
     loop_exit := 0 |}.

(** The device without a bundle and without a catalogue. *)
Definition eon_bare_world : Env :=
  {| EON := true;
     platform_ssl := stock_ssl;
     file := λ _, Missing;
     pem_certificates := sample_decoder;
     qm_lookup := λ _ _, None;
     system_locale := "en_US";
     loop_exit := 0 |}.

(** The device with a bundle that cannot be read. *)
Definition eon_unreadable_world : Env :=
  {| EON := true;
     platform_ssl := stock_ssl;
     file := λ path, if String.eqb path "/usr/etc/tls/cert.pem" then Unreadable else Missing;
     pem_certificates := sample_decoder;
     qm_lookup := λ _ _, None;
     system_locale := "en_US";
     loop_exit := 0 |}.

(** The device with a bundle that holds nothing a decoder accepts. *)
Definition eon_junk_world : Env :=
  {| EON := true;
     platform_ssl := stock_ssl;
     file := λ path, if String.eqb path "/usr/etc/tls/cert.pem"
                     then Readable "#not #a #certificate" else Missing;
     pem_certificates := sample_decoder;
     qm_lookup := λ _ _, None;
     system_locale := "en_US";
     loop_exit := 0 |}.

(** A desktop, with the same files, where the loop ends with status 3. *)
Definition pc_world : Env :=
  {| EON := false;
     platform_ssl := stock_ssl;
     file := file eon_world;
     pem_certificates := sample_decoder;
     qm_lookup := λ _ _, None;
     system_locale := "de_DE";
     loop_exit := 3 |}.

(** ** The sequence as a whole *)

(** Unfolds the statements of [main] down to the state they produce. *)
Ltac step_main :=
  lazy [run final main install_trust_store hardware_stage localization_stage
        window_stage mbind M_bind mret M_ret
        setQtSurfaceFormat Hardware_EON QApplication_setAttribute
        QSslConfiguration_defaultConfiguration QSslCertificate_fromPath
        QSslConfiguration_setDefaultConfiguration QApplication_ctor
        QTranslator_ctor QTranslator_load qDebug installTranslator
        MainWindow_ctor setMainWindow installEventFilter exec emit start
        surface_format_set attributes ssl_default qapp translator w
        main_window trace fst snd].

(** Splits on the two things the sequence branches on. *)
Ltac split_main env :=
  let Heon := fresh "Heon" in
  let Hqm := fresh "Hqm" in
  destruct (EON env) eqn:Heon;
  destruct (qm_lookup env "main_fr" "translations") eqn:Hqm;
  step_main; rewrite ?Heon, ?Hqm;
  lazy [bool_decide decide_rel is_Some_dec negb]; step_main.

Lemma main_stages env argc argv p :
  main env argc argv p =
    (setQtSurfaceFormat ;;
     hardware_stage env ;;
     QApplication_ctor argc argv ;;
     localization_stage env ;;
     window_stage ;;
     exec env) p.
Proof. split_main env; reflexivity. Qed.

Lemma main_trace env argc argv p :
  trace (main env argc argv p).2 = trace p ++ main_events env.
Proof.
  unfold main_events.
  split_main env; rewrite <- ?app_assoc; reflexivity.
Qed.

Example sample_eon_trace :
  trace (final eon_world 1 ["ui"]) =
    [SetSurfaceFormat; SetAttribute AA_ShareOpenGLContexts;
     ReadCertificates "/usr/etc/tls/cert.pem"; SetDefaultSslConfiguration;
     ConstructApplication; LoadTranslation "main_fr" "translations";
     InstallTranslator; ConstructMainWindow; SetMainWindow; InstallEventFilter;
     EnterEventLoop].
Proof. reflexivity. Qed.

Example sample_pc_trace :
  trace (final pc_world 0 []) =
    [SetSurfaceFormat; ConstructApplication; LoadTranslation "main_fr" "translations";
     DebugMessage "Failed to load translation!";
     InstallTranslator; ConstructMainWindow; SetMainWindow; InstallEventFilter;
     EnterEventLoop].
Proof. reflexivity. Qed.

Example sample_eon_certs :
  caCertificates (ssl_default (final eon_world 1 ["ui"])) =
    [{| encoded := "comma-ca" |}; {| encoded := "letsencrypt-r3" |}; {| encoded := "isrg-x1" |}].
Proof. reflexivity. Qed.

Example sample_junk_certs :
  caCertificates (ssl_default (final eon_junk_world 1 ["ui"])) = [].
Proof. reflexivity. Qed.

Example sample_eon_translate :
  translate (final eon_world 1 ["ui"]) "Settings" = "Parametres"
  ∧ translate (final eon_world 1 ["ui"]) "Drive" = "Drive"
  ∧ translate (final pc_world 0 []) "Settings" = "Settings".
Proof. vm_compute. auto. Qed.

Example sample_exit : (run pc_world 0 []).1 = 3.
Proof. reflexivity. Qed.

Lemma final_trace env argc argv :
  trace (final env argc argv) = main_events env.
Proof. unfold final, run. rewrite main_trace. reflexivity. Qed.

(** The final state, field by field. *)
Lemma final_ssl_default env argc argv :
  ssl_default (final env argc argv) =
    if EON env
    then setCaCertificates (platform_ssl env) (fromPath env "/usr/etc/tls/cert.pem")
    else platform_ssl env.
Proof. split_main env; reflexivity. Qed.

Lemma final_attributes env argc argv :
  attributes (final env argc argv) =
    if EON env then {[ AA_ShareOpenGLContexts ]} ∪ ∅ else ∅.
Proof. split_main env; reflexivity. Qed.

Lemma final_qapp env argc argv :
  qapp (final env argc argv) =
    Some {| app_argc := argc; app_argv := argv;
            translators := [ref_translator]; eventFilters := [ref_w] |}.
Proof. split_main env; reflexivity. Qed.

Lemma final_translator env argc argv :
  translator (final env argc argv) =
    Some {| catalogue := qm_lookup env "main_fr" "translations" |}.
Proof. split_main env; reflexivity. Qed.

Lemma final_window env argc argv :
  w (final env argc argv) = Some the_window
  ∧ main_window (final env argc argv) = Some ref_w.
Proof. split_main env; split; reflexivity. Qed.

Lemma run_result env argc argv :
  run env argc argv = (loop_exit env, final env argc argv).
Proof. split_main env; reflexivity. Qed.

Lemma final_installed_catalogues env argc argv :
  installed_catalogues (final env argc argv) =
    option_list (qm_lookup env "main_fr" "translations").
Proof.
  unfold installed_catalogues.
  rewrite final_qapp. cbn. rewrite final_translator. cbn.
  destruct (qm_lookup env "main_fr" "translations"); reflexivity.
Qed.

(** Ordering facts about a trace that is known are settled by running
    [index_of]. *)
Ltac order_by_computation :=
  eexists _, _; split; [vm_compute; reflexivity |];
  split; [vm_compute; reflexivity | lia].

Ltac known_trace env :=
  rewrite ?final_trace; unfold main_events;
  let Heon := fresh "Heon" in
  let Hqm := fresh "Hqm" in
  destruct (EON env) eqn:Heon;
  destruct (qm_lookup env "main_fr" "translations") eqn:Hqm;
  try discriminate.

(** ** The trust store *)

(** C1: on the target hardware, when the bundle at the fixed path can be
    read and holds at least one certificate a decoder accepts, the default
    TLS configuration the bootstrap leaves installed trusts exactly the
    certificates decoded from that file: the same list, hence the same set
    whatever the order. *)
Theorem trust_store_equals_bundle env argc argv data :
  EON env = true →
  file env "/usr/etc/tls/cert.pem" = Readable data →
  pem_certificates env data ≠ [] →
  caCertificates (ssl_default (final env argc argv)) = pem_certificates env data
  ∧ caCertificates (ssl_default (final env argc argv)) ≡ₚ pem_certificates env data
  ∧ (list_to_set (caCertificates (ssl_default (final env argc argv))) : gset QSslCertificate)
    = list_to_set (pem_certificates env data)
  ∧ (∀ c, c ∈ caCertificates (ssl_default (final env argc argv))
          ↔ c ∈ pem_certificates env data).
Proof.
  intros Heon Hfile _.
  assert (caCertificates (ssl_default (final env argc argv)) = pem_certificates env data)
    as ->; [| done].
  rewrite final_ssl_default, Heon. unfold fromPath. by rewrite Hfile.
Qed.

Lemma trust_store_equals_bundle_witness :
  caCertificates (ssl_default (final eon_world 1 ["ui"]))
    = pem_certificates eon_world "comma-ca letsencrypt-r3 isrg-x1"
  ∧ caCertificates (ssl_default (final eon_world 1 ["ui"]))
    ≡ₚ pem_certificates eon_world "comma-ca letsencrypt-r3 isrg-x1"
  ∧ (list_to_set (caCertificates (ssl_default (final eon_world 1 ["ui"])))
       : gset QSslCertificate)
    = list_to_set (pem_certificates eon_world "comma-ca letsencrypt-r3 isrg-x1")
  ∧ (∀ c, c ∈ caCertificates (ssl_default (final eon_world 1 ["ui"]))
          ↔ c ∈ pem_certificates eon_world "comma-ca letsencrypt-r3 isrg-x1").
Proof.
  apply (trust_store_equals_bundle eon_world 1 ["ui"] "comma-ca letsencrypt-r3 isrg-x1").
  - reflexivity.
  - reflexivity.
  - vm_compute. discriminate.
Defined.

(** C2: off the target hardware, the conditional stage changes nothing at
    all; in the whole run the context-sharing attribute is never set, the
    default TLS configuration is never replaced, and the configuration in
    force at the end is the platform's. *)
Theorem off_target_leaves_platform_untouched env argc argv :
  EON env = false →
  (∀ p, hardware_stage env p = ((), p))
  ∧ occurrences (SetAttribute AA_ShareOpenGLContexts) (trace (final env argc argv)) = 0%nat
  ∧ occurrences SetDefaultSslConfiguration (trace (final env argc argv)) = 0%nat
  ∧ (AA_ShareOpenGLContexts ∉ attributes (final env argc argv))
  ∧ ssl_default (final env argc argv) = ssl_default (start env)
  ∧ ssl_default (final env argc argv) = platform_ssl env.
Proof.
  intros Heon. split.
  { intros p. unfold hardware_stage, Hardware_EON. by rewrite Heon. }
  rewrite final_ssl_default, final_attributes, Heon.
  repeat split; try set_solver.
  - known_trace env; reflexivity.
  - known_trace env; reflexivity.
Qed.

Lemma off_target_leaves_platform_untouched_witness :
  (∀ p, hardware_stage pc_world p = ((), p))
  ∧ occurrences (SetAttribute AA_ShareOpenGLContexts) (trace (final pc_world 0 [])) = 0%nat
  ∧ occurrences SetDefaultSslConfiguration (trace (final pc_world 0 [])) = 0%nat
  ∧ (AA_ShareOpenGLContexts ∉ attributes (final pc_world 0 []))
  ∧ ssl_default (final pc_world 0 []) = ssl_default (start pc_world)
  ∧ ssl_default (final pc_world 0 []) = platform_ssl pc_world.
Proof. apply (off_target_leaves_platform_untouched pc_world 0 []). reflexivity. Defined.

(** C3: on the target hardware, when the bundle is missing, cannot be read,
    or holds nothing a decoder accepts, installing the trust store still
    runs to its end from any state, makes its two calls and emits no
    diagnostic, and the configuration it installs trusts no certificate;
    so does the configuration in force at the end of the run. *)
Theorem trust_store_empty_when_bundle_unusable env argc argv p :
  EON env = true →
  file env "/usr/etc/tls/cert.pem" = Missing
  ∨ file env "/usr/etc/tls/cert.pem" = Unreadable
  ∨ (∃ data, file env "/usr/etc/tls/cert.pem" = Readable data
             ∧ pem_certificates env data = []) →
  (∃ p', install_trust_store env p = ((), p')
         ∧ trace p' = trace p ++ [ReadCertificates "/usr/etc/tls/cert.pem";
                                  SetDefaultSslConfiguration]
         ∧ diagnostics (trace p') = diagnostics (trace p)
         ∧ caCertificates (ssl_default p') = [])
  ∧ caCertificates (ssl_default (final env argc argv)) = []
  ∧ (list_to_set (caCertificates (ssl_default (final env argc argv))) : gset QSslCertificate)
    = ∅.
Proof.
  intros Heon Hbundle.
  assert (fromPath env "/usr/etc/tls/cert.pem" = []) as Hnone.
  { unfold fromPath.
    destruct Hbundle as [-> | [-> | (data & -> & ->)]]; reflexivity. }
  split.
  - step_main. rewrite Hnone. eexists. split; [reflexivity |].
    step_main. repeat split.
    + by rewrite <- app_assoc.
    + unfold diagnostics. rewrite !omap_app. cbn. by rewrite !app_nil_r.
  - rewrite final_ssl_default, Heon. cbn. rewrite Hnone. done.
Qed.

Lemma trust_store_empty_when_bundle_unusable_witness :
  (∃ p', install_trust_store eon_bare_world (start eon_bare_world) = ((), p')
         ∧ trace p' = trace (start eon_bare_world)
                      ++ [ReadCertificates "/usr/etc/tls/cert.pem";
                          SetDefaultSslConfiguration]
         ∧ diagnostics (trace p') = diagnostics (trace (start eon_bare_world))
         ∧ caCertificates (ssl_default p') = [])
  ∧ caCertificates (ssl_default (final eon_bare_world 1 ["ui"])) = []
  ∧ (list_to_set (caCertificates (ssl_default (final eon_bare_world 1 ["ui"])))
       : gset QSslCertificate) = ∅.
Proof.
  apply (trust_store_empty_when_bundle_unusable eon_bare_world 1 ["ui"]
           (start eon_bare_world)).
  - reflexivity.
  - left. reflexivity.
Defined.

Example unreadable_bundle_trusts_nothing :
  caCertificates (ssl_default (final eon_unreadable_world 1 ["ui"])) = []
  ∧ diagnostics (trace (install_trust_store eon_unreadable_world
                          (start eon_unreadable_world)).2) = [].
Proof. split; reflexivity. Qed.

Example junk_bundle_trusts_nothing :
  caCertificates (ssl_default (final eon_junk_world 1 ["ui"])) = []
  ∧ diagnostics (trace (install_trust_store eon_junk_world
                          (start eon_junk_world)).2) = [].
Proof. split; reflexivity. Qed.

(** C9: on the target hardware the configuration left installed is the
    platform's with its trusted-certificate list replaced and the loading
    of root certificates on demand switched off: every other setting is
    the platform's. *)
Theorem trust_store_changes_ca_list_and_on_demand_flag env argc argv :
  EON env = true →
  let old := platform_ssl env in
  let new := ssl_default (final env argc argv) in
  protocol new = protocol old
  ∧ peerVerifyMode new = peerVerifyMode old
  ∧ peerVerifyDepth new = peerVerifyDepth old
  ∧ localCertificateChain new = localCertificateChain old
  ∧ privateKey new = privateKey old
  ∧ ciphers new = ciphers old
  ∧ allowRootCertOnDemandLoading new = false
  ∧ new = setCaCertificates old (caCertificates new).
Proof.
  intros Heon old new. subst old new.
  rewrite final_ssl_default, Heon.
  destruct (platform_ssl env). cbn. repeat split.
Qed.

Lemma trust_store_changes_ca_list_and_on_demand_flag_witness :
  let old := platform_ssl eon_world in
  let new := ssl_default (final eon_world 1 ["ui"]) in
  protocol new = protocol old
  ∧ peerVerifyMode new = peerVerifyMode old
  ∧ peerVerifyDepth new = peerVerifyDepth old
  ∧ localCertificateChain new = localCertificateChain old
  ∧ privateKey new = privateKey old
  ∧ ciphers new = ciphers old
  ∧ allowRootCertOnDemandLoading new = false
  ∧ new = setCaCertificates old (caCertificates new).
Proof.
  apply (trust_store_changes_ca_list_and_on_demand_flag eon_world 1 ["ui"]).
  reflexivity.
Defined.

(** On the device of the samples the platform fetches root certificates on
    demand and the configuration left installed does not: a setting other
    than the trusted-certificate list has changed. *)
Lemma on_demand_loading_differs_after_install :
  EON eon_world = true
  ∧ allowRootCertOnDemandLoading (platform_ssl eon_world) = true
  ∧ allowRootCertOnDemandLoading (ssl_default (final eon_world 1 ["ui"]))
    ≠ allowRootCertOnDemandLoading (platform_ssl eon_world).
Proof. repeat split. vm_compute. discriminate. Qed.

(** ** Localization *)

(** C4: the catalogue is among those the application translates with
    exactly when its load succeeded. After a successful load it is the one
    catalogue in use, and a text is shown in its translation where the
    catalogue has one; after a failed load the translator handed to the
    application is empty, no catalogue is in use, and every text is shown
    as written. *)
Theorem catalogue_installed_iff_loaded env argc argv :
  let p := final env argc argv in
  (installed_catalogues p ≠ [] ↔ is_Some (qm_lookup env "main_fr" "translations"))
  ∧ match qm_lookup env "main_fr" "translations" with
    | Some c =>
        (∀ p0, (QTranslator_load env "main_fr" "translations" p0).1 = true)
        ∧ installed_catalogues p = [c]
        ∧ (∀ sourceText, translate p sourceText = default sourceText (c !! sourceText))
    | None =>
        (∀ p0, (QTranslator_load env "main_fr" "translations" p0).1 = false)
        ∧ installed_catalogues p = []
        ∧ (isEmpty <$> translator p) = Some true
        ∧ (∀ sourceText, translate p sourceText = sourceText)
    end.
Proof.
  intros p. subst p. unfold translate.
  rewrite final_installed_catalogues, final_translator.
  unfold QTranslator_load.
  destruct (qm_lookup env "main_fr" "translations") as [c |]; cbn.
  - split; [split; [by eexists | done] |].
    repeat split. intros s. by destruct (c !! s).
  - split; [split; [done | by intros [? ?]] |]. done.
Qed.

Example catalogue_in_use_on_device :
  installed_catalogues (final eon_world 1 ["ui"]) = [french]
  ∧ translate (final eon_world 1 ["ui"]) "Reboot" = "Redemarrer".
Proof. split; vm_compute; reflexivity. Qed.

Example no_catalogue_without_file :
  installed_catalogues (final eon_bare_world 1 ["ui"]) = []
  ∧ translate (final eon_bare_world 1 ["ui"]) "Reboot" = "Reboot".
Proof. split; vm_compute; reflexivity. Qed.

(** C6: whenever the load of the catalogue fails, the one diagnostic is
    emitted and the run goes on through installing the translator,
    constructing the main window, registering it and entering the event
    loop, and yields the loop's result. *)
Theorem failed_load_is_reported_and_survived env argc argv :
  qm_lookup env "main_fr" "translations" = None →
  diagnostics (trace (final env argc argv)) = ["Failed to load translation!"]
  ∧ (∃ earlier,
        trace (final env argc argv) =
          earlier ++ [LoadTranslation "main_fr" "translations";
                      DebugMessage "Failed to load translation!";
                      InstallTranslator; ConstructMainWindow; SetMainWindow;
                      InstallEventFilter; EnterEventLoop])
  ∧ strictly_before (DebugMessage "Failed to load translation!") ConstructMainWindow
      (trace (final env argc argv))
  ∧ strictly_before ConstructMainWindow SetMainWindow (trace (final env argc argv))
  ∧ strictly_before SetMainWindow InstallEventFilter (trace (final env argc argv))
  ∧ strictly_before InstallEventFilter EnterEventLoop (trace (final env argc argv))
  ∧ w (final env argc argv) = Some the_window
  ∧ main_window (final env argc argv) = Some ref_w
  ∧ run env argc argv = (loop_exit env, final env argc argv).
Proof.
  intros Hload.
  destruct (final_window env argc argv) as [Hw Hmw].
  rewrite Hw, Hmw, run_result.
  split; [known_trace env; reflexivity |].
  split.
  { known_trace env.
    - by exists [SetSurfaceFormat; SetAttribute AA_ShareOpenGLContexts;
                 ReadCertificates "/usr/etc/tls/cert.pem"; SetDefaultSslConfiguration;
                 ConstructApplication].
    - by exists [SetSurfaceFormat; ConstructApplication]. }
  repeat split; known_trace env; order_by_computation.
Qed.

Lemma failed_load_is_reported_and_survived_witness :
  diagnostics (trace (final pc_world 0 [])) = ["Failed to load translation!"]
  ∧ (∃ earlier,
        trace (final pc_world 0 []) =
          earlier ++ [LoadTranslation "main_fr" "translations";
                      DebugMessage "Failed to load translation!";
                      InstallTranslator; ConstructMainWindow; SetMainWindow;
                      InstallEventFilter; EnterEventLoop])
  ∧ strictly_before (DebugMessage "Failed to load translation!") ConstructMainWindow
      (trace (final pc_world 0 []))
  ∧ strictly_before ConstructMainWindow SetMainWindow (trace (final pc_world 0 []))
  ∧ strictly_before SetMainWindow InstallEventFilter (trace (final pc_world 0 []))
  ∧ strictly_before InstallEventFilter EnterEventLoop (trace (final pc_world 0 []))
  ∧ w (final pc_world 0 []) = Some the_window
  ∧ main_window (final pc_world 0 []) = Some ref_w
  ∧ run pc_world 0 [] = (loop_exit pc_world, final pc_world 0 []).
Proof. apply (failed_load_is_reported_and_survived pc_world 0 []). reflexivity. Defined.

(** C10: whatever the arguments of the process and whatever the world
    around it, its locale included, one load of a catalogue is attempted,
    for the file name main_fr in the directory translations, and the
    translator holds what that load found. *)
Theorem catalogue_choice_is_fixed env argc argv :
  load_requests (trace (final env argc argv)) = [("main_fr", "translations")]
  ∧ (∀ filename directory,
        LoadTranslation filename directory ∈ trace (final env argc argv) →
        filename = "main_fr" ∧ directory = "translations")
  ∧ translator (final env argc argv)
    = Some {| catalogue := qm_lookup env "main_fr" "translations" |}.
Proof.
  rewrite final_translator.
  assert (load_requests (trace (final env argc argv)) = [("main_fr", "translations")])
    as Hreq by (known_trace env; reflexivity).
  repeat split; [done | |];
    assert ((filename, directory) ∈ load_requests (trace (final env argc argv)))
      as Hin by (unfold load_requests; apply list_elem_of_omap; eexists; split; [eassumption | done]);
    rewrite Hreq in Hin; apply list_elem_of_singleton in Hin; congruence.
Qed.

Example catalogue_choice_ignores_arguments_and_locale :
  load_requests (trace (final eon_world 3 ["ui"; "--lang"; "de"]))
  = load_requests (trace (final pc_world 0 [])).
Proof. reflexivity. Qed.

(** ** Order of the calls *)

(** C5: on the target hardware the context-sharing attribute is set before
    the application object is constructed, which happens once, and the
    attribute is in force at the end. *)
Theorem gl_sharing_set_before_application env argc argv :
  EON env = true →
  strictly_before (SetAttribute AA_ShareOpenGLContexts) ConstructApplication
    (trace (final env argc argv))
  ∧ occurrences ConstructApplication (trace (final env argc argv)) = 1%nat
  ∧ AA_ShareOpenGLContexts ∈ attributes (final env argc argv).
Proof.
  intros Heon. rewrite final_attributes, Heon.
  split; [| split].
  - known_trace env; order_by_computation.
  - known_trace env; reflexivity.
  - set_solver.
Qed.

Lemma gl_sharing_set_before_application_witness :
  strictly_before (SetAttribute AA_ShareOpenGLContexts) ConstructApplication
    (trace (final eon_world 1 ["ui"]))
  ∧ occurrences ConstructApplication (trace (final eon_world 1 ["ui"])) = 1%nat
  ∧ AA_ShareOpenGLContexts ∈ attributes (final eon_world 1 ["ui"]).
Proof. apply (gl_sharing_set_before_application eon_world 1 ["ui"]). reflexivity. Defined.

(** C7: in every run the translator is installed on the application before
    the main window is constructed; each happens once, and the translator
    installed is the one that was loaded. *)
Theorem translator_installed_before_window env argc argv :
  strictly_before InstallTranslator ConstructMainWindow (trace (final env argc argv))
  ∧ occurrences InstallTranslator (trace (final env argc argv)) = 1%nat
  ∧ occurrences ConstructMainWindow (trace (final env argc argv)) = 1%nat
  ∧ (translators <$> qapp (final env argc argv)) = Some [ref_translator].
Proof.
  rewrite final_qapp.
  repeat split; known_trace env; first [reflexivity | order_by_computation].
Qed.

(** C8: in every run the main window is registered as the current main
    window and installed as an event filter on the application before the
    event loop is entered; the loop is entered once, as the last call, so
    it starts with the window registered and filtering. *)
Theorem window_registered_before_event_loop env argc argv :
  strictly_before SetMainWindow EnterEventLoop (trace (final env argc argv))
  ∧ strictly_before InstallEventFilter EnterEventLoop (trace (final env argc argv))
  ∧ strictly_before ConstructMainWindow SetMainWindow (trace (final env argc argv))
  ∧ occurrences EnterEventLoop (trace (final env argc argv)) = 1%nat
  ∧ last (trace (final env argc argv)) = Some EnterEventLoop
  ∧ main_window (final env argc argv) = Some ref_w
  ∧ (eventFilters <$> qapp (final env argc argv)) = Some [ref_w].
Proof.
  destruct (final_window env argc argv) as [_ Hmw].
  rewrite final_qapp, Hmw.
  repeat split; known_trace env; first [reflexivity | order_by_computation].
Qed.

(** ** Further properties of the start-up sequence *)

(** X1: the status [main] returns is the value the event loop returned, on
    the device and off it, whether or not the catalogue was found, and
    whatever state the process was in when [main] was entered. *)
Theorem exit_status_is_loop_result env argc argv :
  (run env argc argv).1 = loop_exit env
  ∧ (∀ p, (main env argc argv p).1 = loop_exit env).
Proof.
  rewrite run_result. split; [done |].
  intros p. split_main env; reflexivity.
Qed.

(** X2: the application object is built from the process arguments as they
    were passed, and nothing [main] does afterwards changes them. *)
Theorem arguments_forwarded_verbatim env argc argv :
  (app_argc <$> qapp (final env argc argv)) = Some argc
  ∧ (app_argv <$> qapp (final env argc argv)) = Some argv
  ∧ occurrences ConstructApplication (trace (final env argc argv)) = 1%nat.
Proof.
  rewrite final_qapp. repeat split.
  known_trace env; reflexivity.
Qed.

(** X3: the surface format is set once, as the very first call of every
    run, hence before the application object and the window exist. *)
Theorem surface_format_set_first env argc argv :
  head (trace (final env argc argv)) = Some SetSurfaceFormat
  ∧ occurrences SetSurfaceFormat (trace (final env argc argv)) = 1%nat
  ∧ strictly_before SetSurfaceFormat ConstructApplication (trace (final env argc argv))
  ∧ strictly_before SetSurfaceFormat ConstructMainWindow (trace (final env argc argv))
  ∧ surface_format_set (final env argc argv) = true.
Proof.
  split; [known_trace env; reflexivity |].
  split; [known_trace env; reflexivity |].
  split; [known_trace env; order_by_computation |].
  split; [known_trace env; order_by_computation |].
  split_main env; reflexivity.
Qed.

(** X4: a diagnostic is emitted exactly when the load of the catalogue
    fails: a run that finds the catalogue emits none, and no run emits
    anything but the one message. *)
Theorem diagnostic_iff_load_fails env argc argv :
  (diagnostics (trace (final env argc argv)) = []
   ↔ is_Some (qm_lookup env "main_fr" "translations"))
  ∧ (diagnostics (trace (final env argc argv)) = ["Failed to load translation!"]
     ↔ qm_lookup env "main_fr" "translations" = None)
  ∧ (∀ message, message ∈ diagnostics (trace (final env argc argv)) ↔
                message = "Failed to load translation!"
                ∧ qm_lookup env "main_fr" "translations" = None).
Proof.
  rewrite final_trace. unfold main_events.
  destruct (EON env), (qm_lookup env "main_fr" "translations") as [c |]; cbn.
  all: split; [split; [try done; by eexists | try done; by intros [? ?]] |].
  all: split; [split; done |].
  all: intros message; rewrite ?list_elem_of_singleton; split;
    [try done; by inversion 1 | by intros [? ?]].
Qed.

(** X5: the only file of certificates ever read is the bundle at the fixed
    path, and it is read on the target hardware only. *)
Theorem only_the_bundle_is_read env argc argv path :
  ReadCertificates path ∈ trace (final env argc argv)
  ↔ path = "/usr/etc/tls/cert.pem" ∧ EON env = true.
Proof.
  rewrite final_trace. unfold main_events.
  destruct (EON env), (qm_lookup env "main_fr" "translations");
    cbn; rewrite ?elem_of_cons, elem_of_nil; intuition congruence.
Qed.

(** X9: the only application attribute ever set is the sharing of OpenGL
    contexts, and it is set on the target hardware only. *)
Theorem only_gl_sharing_is_set env argc argv attribute :
  (SetAttribute attribute ∈ trace (final env argc argv)
   ↔ attribute = AA_ShareOpenGLContexts ∧ EON env = true)
  ∧ (attribute ∈ attributes (final env argc argv)
     ↔ attribute = AA_ShareOpenGLContexts ∧ EON env = true).
Proof.
  rewrite final_trace, final_attributes. unfold main_events.
  destruct (EON env), (qm_lookup env "main_fr" "translations");
    cbn; rewrite ?elem_of_cons, elem_of_nil; (split; [intuition congruence |]);
    rewrite ?elem_of_union, ?elem_of_singleton, ?elem_of_empty; intuition congruence.
Qed.

(** X6: on the target hardware the bundle replaces the platform's trusted
    certificates, it does not add to them: whatever the file holds, the
    list left installed is what was decoded from it, so a certificate the
    platform trusted is trusted afterwards only if the bundle holds it. *)
Theorem trust_store_replaces_platform_roots env argc argv :
  EON env = true →
  caCertificates (ssl_default (final env argc argv))
    = fromPath env "/usr/etc/tls/cert.pem"
  ∧ (∀ c, c ∈ caCertificates (platform_ssl env) →
          c ∉ fromPath env "/usr/etc/tls/cert.pem" →
          c ∉ caCertificates (ssl_default (final env argc argv))).
Proof.
  intros Heon. rewrite final_ssl_default, Heon. cbn. split; [done |].
  by intros c _ Hout.
Qed.

Lemma trust_store_replaces_platform_roots_witness :
  caCertificates (ssl_default (final eon_world 1 ["ui"]))
    = fromPath eon_world "/usr/etc/tls/cert.pem"
  ∧ (∀ c, c ∈ caCertificates (platform_ssl eon_world) →
          c ∉ fromPath eon_world "/usr/etc/tls/cert.pem" →
          c ∉ caCertificates (ssl_default (final eon_world 1 ["ui"]))).
Proof. apply (trust_store_replaces_platform_roots eon_world 1 ["ui"]). reflexivity. Defined.

Example system_root_dropped_on_device :
  {| encoded := "system-root-1" |} ∈ caCertificates (platform_ssl eon_world)
  ∧ {| encoded := "system-root-1" |} ∉ caCertificates (ssl_default (final eon_world 1 ["ui"])).
Proof.
  split; [by left |].
  change ({| encoded := "system-root-1" |}
          ∉ [{| encoded := "comma-ca" |}; {| encoded := "letsencrypt-r3" |};
             {| encoded := "isrg-x1" |}]).
  rewrite !not_elem_of_cons. repeat split; [discriminate.. | apply not_elem_of_nil].
Qed.

(** X7: on the target hardware the bundle is read before the default TLS
    configuration is replaced, and it is replaced once, before the
    application object is constructed and so before the event loop runs. *)
Theorem trust_store_installed_before_application env argc argv :
  EON env = true →
  strictly_before (ReadCertificates "/usr/etc/tls/cert.pem") SetDefaultSslConfiguration
    (trace (final env argc argv))
  ∧ strictly_before SetDefaultSslConfiguration ConstructApplication
      (trace (final env argc argv))
  ∧ strictly_before SetDefaultSslConfiguration EnterEventLoop
      (trace (final env argc argv))
  ∧ occurrences SetDefaultSslConfiguration (trace (final env argc argv)) = 1%nat.
Proof.
  intros Heon.
  repeat split; known_trace env; first [reflexivity | order_by_computation].
Qed.

Lemma trust_store_installed_before_application_witness :
  strictly_before (ReadCertificates "/usr/etc/tls/cert.pem") SetDefaultSslConfiguration
    (trace (final eon_world 1 ["ui"]))
  ∧ strictly_before SetDefaultSslConfiguration ConstructApplication
      (trace (final eon_world 1 ["ui"]))
  ∧ strictly_before SetDefaultSslConfiguration EnterEventLoop
      (trace (final eon_world 1 ["ui"]))
  ∧ occurrences SetDefaultSslConfiguration (trace (final eon_world 1 ["ui"])) = 1%nat.
Proof.
  apply (trust_store_installed_before_application eon_world 1 ["ui"]). reflexivity.
Defined.

(** X8: in every run the application object exists before anything is
    installed on it: it is constructed before the catalogue is loaded, the
    catalogue is loaded before the translator is installed, and the event
    filter is installed once, after the construction. *)
Theorem application_constructed_before_use env argc argv :
  strictly_before ConstructApplication (LoadTranslation "main_fr" "translations")
    (trace (final env argc argv))
  ∧ strictly_before (LoadTranslation "main_fr" "translations") InstallTranslator
      (trace (final env argc argv))
  ∧ strictly_before ConstructApplication InstallTranslator (trace (final env argc argv))
  ∧ strictly_before ConstructApplication InstallEventFilter (trace (final env argc argv))
  ∧ occurrences InstallEventFilter (trace (final env argc argv)) = 1%nat.
Proof.
  repeat split; known_trace env; first [reflexivity | order_by_computation].
Qed.

(** X10: the hardware check, the file system, the certificate decoder and
    the platform's TLS configuration have no influence on what the
    translator holds, on the catalogues in use, on the diagnostics or on
    the text shown: two worlds that find the same catalogue agree on all
    of them. *)
Theorem localization_ignores_hardware env1 env2 argc argv :
  qm_lookup env1 "main_fr" "translations" = qm_lookup env2 "main_fr" "translations" →
  translator (final env1 argc argv) = translator (final env2 argc argv)
  ∧ installed_catalogues (final env1 argc argv)
    = installed_catalogues (final env2 argc argv)
  ∧ diagnostics (trace (final env1 argc argv)) = diagnostics (trace (final env2 argc argv))
  ∧ (∀ sourceText, translate (final env1 argc argv) sourceText
                   = translate (final env2 argc argv) sourceText).
Proof.
  intros Hsame.
  unfold translate.
  rewrite !final_translator, !final_installed_catalogues, !final_trace, Hsame.
  repeat split. unfold main_events. rewrite Hsame.
  destruct (EON env1), (EON env2), (qm_lookup env2 "main_fr" "translations");
    reflexivity.
Qed.

Lemma localization_ignores_hardware_witness :
  translator (final eon_bare_world 1 ["ui"]) = translator (final pc_world 1 ["ui"])
  ∧ installed_catalogues (final eon_bare_world 1 ["ui"])
    = installed_catalogues (final pc_world 1 ["ui"])
  ∧ diagnostics (trace (final eon_bare_world 1 ["ui"]))
    = diagnostics (trace (final pc_world 1 ["ui"]))
  ∧ (∀ sourceText, translate (final eon_bare_world 1 ["ui"]) sourceText
                   = translate (final pc_world 1 ["ui"]) sourceText).
Proof.
  apply (localization_ignores_hardware eon_bare_world pc_world 1 ["ui"]).
  reflexivity.
Defined.

(** X11: the process arguments, the catalogue and the locale have no
    influence on the TLS configuration and the application attributes left
    in force: two runs on the same kind of hardware, from the same platform
    configuration and with the same certificates decoded from the bundle,
    agree on both. *)
Theorem tls_and_attributes_ignore_arguments_and_catalogue
    env1 env2 argc1 argv1 argc2 argv2 :
  EON env1 = EON env2 →
  platform_ssl env1 = platform_ssl env2 →
  fromPath env1 "/usr/etc/tls/cert.pem" = fromPath env2 "/usr/etc/tls/cert.pem" →
  ssl_default (final env1 argc1 argv1) = ssl_default (final env2 argc2 argv2)
  ∧ attributes (final env1 argc1 argv1) = attributes (final env2 argc2 argv2).
Proof.
  intros Heon Hssl Hcerts.
  rewrite !final_ssl_default, !final_attributes, Heon, Hssl, Hcerts. done.
Qed.

Lemma tls_and_attributes_ignore_arguments_and_catalogue_witness :
  ssl_default (final eon_bare_world 1 ["ui"])
    = ssl_default (final eon_junk_world 3 ["ui"; "--lang"; "de"])
  ∧ attributes (final eon_bare_world 1 ["ui"])
    = attributes (final eon_junk_world 3 ["ui"; "--lang"; "de"]).
Proof.
  apply (tls_and_attributes_ignore_arguments_and_catalogue
           eon_bare_world eon_junk_world 1 ["ui"] 3 ["ui"; "--lang"; "de"]);
    reflexivity.
Defined.
